(** * Access-control examples: guards, strategies and evaluator chains

    A shallow embedding of the three TypeScript files of the repository:

    - [Example2]: the hardcoded guard-style [isAllowed] (isAllowed_v2.ts),
    - [Example3]: policies as strategy objects,
    - [Example4]: policies as chains of evaluators returning
      [boolean | undefined].

    Every file reads a module-level array [BANNED_USERS].  JavaScript
    functions may read and mutate such state, so functions are embedded in a
    small state monad over the module store; the rule library itself only
    reads it. *)

From Stdlib Require Import String List Bool.
Import ListNotations.
Open Scope string_scope.
Open Scope list_scope.

(** ** Data model *)

(** [tier: "basic" | "premium"] *)
Inductive Tier : Type := tier_basic | tier_premium.

(** [vis: "public" | "premium" | "private"] *)
Inductive Visibility : Type := vis_public | vis_premium | vis_private.

Record User : Type := { name : string; tier : Tier; is_admin : bool }.

Record Resource : Type := { vis : Visibility; owner : string }.

(** [===] on the string literals of the [tier] union. *)
Definition Tier_eqb (a b : Tier) : bool :=
  match a, b with
  | tier_basic, tier_basic => true
  | tier_premium, tier_premium => true
  | _, _ => false
  end.

(** [===] on the string literals of the [vis] union. *)
Definition Visibility_eqb (a b : Visibility) : bool :=
  match a, b with
  | vis_public, vis_public => true
  | vis_premium, vis_premium => true
  | vis_private, vis_private => true
  | _, _ => false
  end.

(** ** Module state and the monad of functions that may touch it *)

(** The only module-level state: [const BANNED_USERS : string[]]. *)
Record Store : Type := { BANNED_USERS : list string }.

Definition M (A : Type) : Type := Store -> A * Store.

Definition ret {A : Type} (a : A) : M A := fun s => (a, s).

Definition bind {A B : Type} (m : M A) (k : A -> M B) : M B :=
  fun s => let (a, s') := m s in k a s'.

Notation "x <- c1 ;; c2" := (bind c1 (fun x => c2))
  (at level 61, c1 at next level, right associativity).

(** Reading the array bound to [BANNED_USERS]. *)
Definition read_BANNED_USERS : M (list string) :=
  fun s => (BANNED_USERS s, s).

(** [BANNED_USERS.push(x)]: not used by the rule library, but an evaluator
    written by a caller is free to do it. *)
Definition push_BANNED_USERS (x : string) : M unit :=
  fun s => (tt, {| BANNED_USERS := BANNED_USERS s ++ [x] |}).

(** [Array.prototype.includes] on an array of strings. *)
Definition includes (xs : list string) (x : string) : bool :=
  existsb (String.eqb x) xs.

(** The value a call returns and the store it leaves. *)
Definition value {A : Type} (m : M A) (s : Store) : A := fst (m s).
Definition store_after {A : Type} (m : M A) (s : Store) : Store := snd (m s).

(** ** Decisions: [boolean | undefined] *)

Abbreviation Decision := (option bool) (only parsing).
Abbreviation Allow := (Some true).
Abbreviation Deny := (Some false).
Abbreviation Abstain := None.

(** ** Example 2: guards and an exhaustive case analysis *)

Module Example2.

(** The final [else] branch calls [assertNever(res.vis)]; its argument has
    type [never], so for a [Resource] the three cases are exhaustive. *)
Definition isAllowed (user : User) (res : Resource) : M bool :=
  if is_admin user then ret true
  else
    banned <- read_BANNED_USERS ;;
    if includes banned (name user) then ret false
    else
      match vis res with
      | vis_public => ret true
      | vis_premium => ret (Tier_eqb (tier user) tier_premium)
      | vis_private => ret (String.eqb (name user) (owner res))
      end.

End Example2.

(** ** Example 3: policies as strategies *)

Module Example3.

Record VisibilityRules : Type := {
  public : User -> Resource -> M bool;
  premium : User -> Resource -> M bool;
  private : User -> Resource -> M bool
}.

Record AccessPolicy : Type := {
  is_banned : User -> Resource -> M bool;
  allow_by_visibility : VisibilityRules
}.

(** [policy.allow_by_visibility[res.vis]] *)
Definition lookup_visibility (rules : VisibilityRules) (v : Visibility)
  : User -> Resource -> M bool :=
  match v with
  | vis_public => public rules
  | vis_premium => premium rules
  | vis_private => private rules
  end.

Definition normal_policies : AccessPolicy := {|
  is_banned := fun user res =>
    banned <- read_BANNED_USERS ;; ret (includes banned (name user));
  allow_by_visibility := {|
    public := fun user res => ret true;
    premium := fun user res => ret (Tier_eqb (tier user) tier_premium);
    private := fun user res => ret (String.eqb (name user) (owner res))
  |}
|}.

Definition anniversary_policies : AccessPolicy := {|
  is_banned := fun user res => ret false;
  allow_by_visibility := {|
    public := fun user res => ret true;
    premium := fun user res => ret true;
    private := fun user res => ret (String.eqb (name user) (owner res))
  |}
|}.

Definition isAllowed (policy : AccessPolicy) (user : User) (res : Resource)
  : M bool :=
  if is_admin user then ret true
  else
    b <- is_banned policy user res ;;
    if b then ret false
    else lookup_visibility (allow_by_visibility policy) (vis res) user res.

End Example3.

(** ** Example 4: policies as a chain of evaluators *)

Module Example4.

Definition AccessEvaluator : Type := User -> Resource -> M Decision.

Definition ALLOW_ADMINS : AccessEvaluator :=
  fun user _ => ret (if is_admin user then Some true else None).

Definition DENY_BANNED : AccessEvaluator :=
  fun user _ =>
    banned <- read_BANNED_USERS ;;
    ret (if includes banned (name user) then Some false else None).

Definition OWNER_CAN_ACCESS : AccessEvaluator :=
  fun user res =>
    ret (if String.eqb (name user) (owner res) then Some true else None).

(** The [default] branch calls [assertNever(res.vis)] on a value of type
    [never]; the three cases are exhaustive. *)
Definition ALLOW_BY_TIER : AccessEvaluator :=
  fun user res =>
    match vis res with
    | vis_public => ret (Some true)
    | vis_premium =>
        ret (if Tier_eqb (tier user) tier_premium then Some true
             else Some false)
    | vis_private => ret None
    end.

(** Falls off the end of the function, hence [undefined], when the resource
    is not premium. *)
Definition FREE_PREMIUM_ACCESS : AccessEvaluator :=
  fun user res =>
    if Visibility_eqb (vis res) vis_premium then ret (Some true)
    else ret None.

(** The object [EVALUATORS], as its properties in declaration order. *)
Definition EVALUATORS : list (string * AccessEvaluator) :=
  [ ("ALLOW_ADMINS", ALLOW_ADMINS);
    ("DENY_BANNED", DENY_BANNED);
    ("OWNER_CAN_ACCESS", OWNER_CAN_ACCESS);
    ("ALLOW_BY_TIER", ALLOW_BY_TIER);
    ("FREE_PREMIUM_ACCESS", FREE_PREMIUM_ACCESS) ].

Definition AccessPolicy : Type := list AccessEvaluator.

(** The [for ... of] loop with its early [return]. *)
Fixpoint evaluatePolicy (policy : AccessPolicy) (user : User) (res : Resource)
  : M Decision :=
  match policy with
  | [] => ret None
  | fn :: rest =>
      result <- fn user res ;;
      match result with
      | Some b => ret (Some b)
      | None => evaluatePolicy rest user res
      end
  end.

Definition normal_policy : AccessPolicy :=
  [ ALLOW_ADMINS; DENY_BANNED; OWNER_CAN_ACCESS; ALLOW_BY_TIER ].

Definition anniversary_policy : AccessPolicy :=
  [ ALLOW_ADMINS; DENY_BANNED; OWNER_CAN_ACCESS; FREE_PREMIUM_ACCESS;
    ALLOW_BY_TIER ].

Definition strict_policy : AccessPolicy :=
  [ ALLOW_ADMINS; DENY_BANNED; OWNER_CAN_ACCESS ].

Definition debug_policy : AccessPolicy :=
  [ fun _ _ => ret (Some true) ].

(** [evaluatePolicy(policy, user, res) ?? false] *)
Definition isAllowed (policy : AccessPolicy) (user : User) (res : Resource)
  : M bool :=
  d <- evaluatePolicy policy user res ;;
  ret (match d with Some b => b | None => false end).

(** The generic chain walk; [TArgs] is the tuple of arguments spread into
    every function of the chain. *)
Fixpoint evaluateChain {TArgs TResult : Type}
  (chain : list (TArgs -> M (option TResult))) (args : TArgs)
  : M (option TResult) :=
  match chain with
  | [] => ret None
  | fn :: rest =>
      result <- fn args ;;
      match result with
      | Some x => ret (Some x)
      | None => evaluateChain rest args
      end
  end.

(** An [AccessEvaluator] seen as a function of the argument tuple
    [[user, res]], which is how [evaluateChain] calls it. *)
Definition spread (fn : AccessEvaluator) : User * Resource -> M Decision :=
  fun args => fn (fst args) (snd args).

End Example4.

(** ** The specification's view of a policy decision *)

Module Spec.

Import Example4.

(** Follows the specification's words (chain walk, step 2): every evaluator
    is run, in sequence order, and the decisions are collected. *)
Fixpoint opinions (policy : AccessPolicy) (user : User) (res : Resource)
  : M (list Decision) :=
  match policy with
  | [] => ret []
  | fn :: rest =>
      d <- fn user res ;;
      ds <- opinions rest user res ;;
      ret (d :: ds)
  end.

(** Follows the specification's words: the first non-[Abstain] decision in
    sequence order, [Abstain] when there is none. *)
Fixpoint FirstDecisive (ds : list Decision) : Decision :=
  match ds with
  | [] => Abstain
  | Some b :: _ => Some b
  | None :: rest => FirstDecisive rest
  end.

(** Follows the specification's words: [decide] collects all opinions and
    then applies the combinator. *)
Definition decide (policy : AccessPolicy) (user : User) (res : Resource)
  : M Decision :=
  ds <- opinions policy user res ;;
  ret (FirstDecisive ds).

(** An evaluator that leaves the store as it found it. *)
Definition read_only (fn : AccessEvaluator) : Prop :=
  forall user res s, store_after (fn user res) s = s.

(** The evaluator that always answers [d]; [debug_policy] holds one. *)
Definition always (d : Decision) : AccessEvaluator := fun _ _ => ret d.

(** The baseline chain with [DENY_BANNED] and [OWNER_CAN_ACCESS] swapped. *)
Definition owner_first_policy : AccessPolicy :=
  [ ALLOW_ADMINS; OWNER_CAN_ACCESS; DENY_BANNED; ALLOW_BY_TIER ].

(** An evaluator with a side effect: it bans whoever asks, and abstains. *)
Definition BAN_CALLER : AccessEvaluator :=
  fun user _ => _ <- push_BANNED_USERS (name user) ;; ret None.

End Spec.

(** ** Subjects, objects and stores of the end-to-end scenarios *)

Module Scenario.

Definition alice : User :=
  {| name := "alice"; tier := tier_basic; is_admin := false |}.

Definition carol : User :=
  {| name := "carol"; tier := tier_basic; is_admin := false |}.

Definition root : User :=
  {| name := "root"; tier := tier_basic; is_admin := true |}.

Definition premium_of_bob : Resource :=
  {| vis := vis_premium; owner := "bob" |}.

Definition private_of_bob : Resource :=
  {| vis := vis_private; owner := "bob" |}.

Definition public_of_carol : Resource :=
  {| vis := vis_public; owner := "carol" |}.

(** The store as the files initialise it: [BANNED_USERS = []]. *)
Definition no_bans : Store := {| BANNED_USERS := [] |}.

Definition carol_and_root_banned : Store :=
  {| BANNED_USERS := ["carol"; "root"] |}.

End Scenario.

(** ** Example 1: the nested conditionals *)

Module Example1.

(** [res.vis !== "private" && !BANNED_USERS.includes(user.name)] only reads
    the ban list when its left operand is true. *)
Definition isAllowed (user : User) (res : Resource) : M bool :=
  if is_admin user then ret true
  else
    if String.eqb (name user) (owner res) then
      banned <- read_BANNED_USERS ;;
      ret (negb (includes banned (name user)))
    else
      if Tier_eqb (tier user) tier_premium then
        if negb (Visibility_eqb (vis res) vis_private) then
          banned <- read_BANNED_USERS ;;
          ret (negb (includes banned (name user)))
        else ret false
      else
        if Visibility_eqb (vis res) vis_public then
          banned <- read_BANNED_USERS ;;
          ret (negb (includes banned (name user)))
        else ret false.

End Example1.

(** ** Further subjects and objects used as concrete cases *)

Module Cases.

Definition dave : User :=
  {| name := "dave"; tier := tier_basic; is_admin := false |}.

Definition erin : User :=
  {| name := "erin"; tier := tier_premium; is_admin := false |}.

Definition premium_of_dave : Resource :=
  {| vis := vis_premium; owner := "dave" |}.

Definition private_of_dave : Resource :=
  {| vis := vis_private; owner := "dave" |}.

Definition dave_banned : Store := {| BANNED_USERS := ["dave"] |}.

End Cases.

(** * Properties *)

Import Example4 Spec.

(** ** Running monadic code *)

#[local] Arguments bind {A B} m k s : simpl never.

Lemma value_ret {A : Type} (a : A) (s : Store) : value (ret a) s = a.
Proof. reflexivity. Qed.

Lemma store_after_ret {A : Type} (a : A) (s : Store) :
  store_after (ret a) s = s.
Proof. reflexivity. Qed.

Lemma bind_run {A B : Type} (m : M A) (k : A -> M B) (s : Store) :
  bind m k s = k (value m s) (store_after m s).
Proof. unfold bind, value, store_after. destruct (m s); reflexivity. Qed.

(** ** The chain walk, one evaluator at a time *)

Section ChainWalk.

Variables (user : User) (res : Resource).

Lemma evaluatePolicy_decisive fn rest s b :
  value (fn user res) s = Some b ->
  evaluatePolicy (fn :: rest) user res s
  = (Some b, store_after (fn user res) s).
Proof.
  intros H. simpl. rewrite bind_run, H. reflexivity.
Qed.

Lemma evaluatePolicy_abstain fn rest s :
  value (fn user res) s = None ->
  evaluatePolicy (fn :: rest) user res s
  = evaluatePolicy rest user res (store_after (fn user res) s).
Proof.
  intros H. simpl. rewrite bind_run, H. reflexivity.
Qed.

Lemma opinions_cons fn rest s :
  value (opinions (fn :: rest) user res) s
  = value (fn user res) s
    :: value (opinions rest user res) (store_after (fn user res) s).
Proof.
  unfold value at 1. simpl. rewrite !bind_run. reflexivity.
Qed.

Lemma opinions_length policy s :
  length (value (opinions policy user res) s) = length policy.
Proof.
  revert s. induction policy as [|fn rest IH]; intros s.
  - reflexivity.
  - rewrite opinions_cons. simpl. now rewrite IH.
Qed.

(** The short-circuiting walk returns what the combinator picks among the
    opinions of the whole chain. *)
Lemma evaluatePolicy_FirstDecisive policy s :
  value (evaluatePolicy policy user res) s
  = FirstDecisive (value (opinions policy user res) s).
Proof.
  revert s. induction policy as [|fn rest IH]; intros s.
  - reflexivity.
  - rewrite opinions_cons.
    destruct (value (fn user res) s) as [b|] eqn:E.
    + unfold value at 1. rewrite (evaluatePolicy_decisive _ _ _ _ E).
      reflexivity.
    + unfold value at 1. rewrite (evaluatePolicy_abstain _ _ _ E).
      apply IH.
Qed.

Lemma opinions_read_only policy s :
  Forall read_only policy ->
  store_after (opinions policy user res) s = s.
Proof.
  intros H. revert s. induction H as [|fn rest Hfn _ IH]; intros s.
  - reflexivity.
  - unfold store_after. simpl. rewrite !bind_run. simpl.
    fold (store_after (opinions rest user res) (store_after (fn user res) s)).
    now rewrite IH, Hfn.
Qed.

Lemma evaluatePolicy_read_only policy s :
  Forall read_only policy ->
  store_after (evaluatePolicy policy user res) s = s.
Proof.
  intros H. revert s. induction H as [|fn rest Hfn _ IH]; intros s.
  - reflexivity.
  - destruct (value (fn user res) s) as [b|] eqn:E.
    + unfold store_after at 1. rewrite (evaluatePolicy_decisive _ _ _ _ E).
      apply Hfn.
    + unfold store_after at 1. rewrite (evaluatePolicy_abstain _ _ _ E).
      fold (store_after (evaluatePolicy rest user res)
              (store_after (fn user res) s)).
      now rewrite IH, Hfn.
Qed.

Lemma opinions_always ds s :
  value (opinions (map always ds) user res) s = ds.
Proof.
  revert s. induction ds as [|d ds IH]; intros s.
  - reflexivity.
  - rewrite map_cons, opinions_cons. now rewrite IH.
Qed.

End ChainWalk.

(** ** The combinator on decision sequences *)

Lemma FirstDecisive_all_abstain ds :
  Forall (fun d => d = Abstain) ds -> FirstDecisive ds = Abstain.
Proof.
  induction 1 as [|d ds Hd _ IH]; simpl.
  - reflexivity.
  - now rewrite Hd.
Qed.

Lemma FirstDecisive_first pre d post :
  Forall (fun x => x = Abstain) pre -> d <> Abstain ->
  FirstDecisive (pre ++ d :: post) = d.
Proof.
  induction 1 as [|x pre Hx _ IH]; intros Hd; simpl.
  - destruct d as [b|]; [reflexivity | now elim Hd].
  - rewrite Hx. now apply IH.
Qed.

(** ** The rule library only reads the store *)

Lemma ALLOW_ADMINS_read_only : read_only ALLOW_ADMINS.
Proof. intros user res s. reflexivity. Qed.

Lemma DENY_BANNED_read_only : read_only DENY_BANNED.
Proof. intros user res s. reflexivity. Qed.

Lemma OWNER_CAN_ACCESS_read_only : read_only OWNER_CAN_ACCESS.
Proof. intros user res s. reflexivity. Qed.

Lemma ALLOW_BY_TIER_read_only : read_only ALLOW_BY_TIER.
Proof.
  intros user res s. unfold ALLOW_BY_TIER.
  destruct (vis res); reflexivity.
Qed.

Lemma FREE_PREMIUM_ACCESS_read_only : read_only FREE_PREMIUM_ACCESS.
Proof.
  intros user res s. unfold FREE_PREMIUM_ACCESS.
  destruct (Visibility_eqb (vis res) vis_premium); reflexivity.
Qed.

Create HintDb rules.
#[local] Hint Resolve ALLOW_ADMINS_read_only DENY_BANNED_read_only
  OWNER_CAN_ACCESS_read_only ALLOW_BY_TIER_read_only
  FREE_PREMIUM_ACCESS_read_only : rules.

Lemma EVALUATORS_read_only : Forall read_only (map snd EVALUATORS).
Proof. unfold EVALUATORS; simpl. repeat constructor; auto with rules. Qed.

Lemma normal_policy_read_only : Forall read_only normal_policy.
Proof. unfold normal_policy. repeat constructor; auto with rules. Qed.

Lemma anniversary_policy_read_only : Forall read_only anniversary_policy.
Proof. unfold anniversary_policy. repeat constructor; auto with rules. Qed.

Lemma BAN_CALLER_writes :
  store_after (BAN_CALLER Scenario.alice Scenario.premium_of_bob)
    Scenario.no_bans
  = {| BANNED_USERS := ["alice"] |}.
Proof. reflexivity. Qed.

(** ** What each evaluator of the baseline chain answers *)

Section Baseline.

Variables (user : User) (res : Resource) (s : Store).

Lemma isAllowed_value policy :
  value (isAllowed policy user res) s
  = match value (evaluatePolicy policy user res) s with
    | Some b => b
    | None => false
    end.
Proof. unfold isAllowed, value at 1. rewrite bind_run. reflexivity. Qed.

Lemma isAllowed_store policy :
  store_after (isAllowed policy user res) s
  = store_after (evaluatePolicy policy user res) s.
Proof. unfold isAllowed, store_after at 1. rewrite bind_run. reflexivity. Qed.

Lemma ALLOW_ADMINS_value :
  ALLOW_ADMINS user res s
  = (if is_admin user then Allow else Abstain, s).
Proof. reflexivity. Qed.

Lemma DENY_BANNED_value :
  DENY_BANNED user res s
  = (if includes (BANNED_USERS s) (name user) then Deny else Abstain, s).
Proof. reflexivity. Qed.

Lemma OWNER_CAN_ACCESS_value :
  OWNER_CAN_ACCESS user res s
  = (if String.eqb (name user) (owner res) then Allow else Abstain, s).
Proof. reflexivity. Qed.

End Baseline.

(** ** The visibility-tiered evaluator *)

Lemma ALLOW_BY_TIER_premium user res s :
  vis res = vis_premium ->
  ALLOW_BY_TIER user res s
  = (if Tier_eqb (tier user) tier_premium then Allow else Deny, s).
Proof. intros H. unfold ALLOW_BY_TIER. rewrite H. reflexivity. Qed.

(** C1: on a premium resource the visibility-tiered evaluator is claimed to
    answer [Abstain] to a subject whose tier is not premium.  The code
    answers [Deny] there: for the basic-tier subject alice and bob's premium
    resource, [ALLOW_BY_TIER] returns [false], not [undefined]. *)
Theorem ALLOW_BY_TIER_denies_basic_on_premium :
  value (ALLOW_BY_TIER Scenario.alice Scenario.premium_of_bob)
    Scenario.no_bans = Deny
  /\ value (ALLOW_BY_TIER Scenario.alice Scenario.premium_of_bob)
       Scenario.no_bans <> Abstain.
Proof. split; [reflexivity | discriminate]. Qed.

(** A rule placed after [ALLOW_BY_TIER] never gets to grant a premium
    resource: the denial ends the walk. *)
Lemma FREE_PREMIUM_ACCESS_after_tier_is_dead :
  value (isAllowed [ALLOW_BY_TIER; FREE_PREMIUM_ACCESS]
           Scenario.alice Scenario.premium_of_bob) Scenario.no_bans = false.
Proof. reflexivity. Qed.

(** ** The engine's boolean answer *)

(** C2, as stated, fails: no caller-supplied default is honoured.  If the
    answer on [Abstain] were whatever default the caller chose, the empty
    policy would answer [true] for the default [true]; it answers [false]. *)
Lemma isAllowed_ignores_caller_default :
  ~ (forall (default_on_abstain : bool) policy user res s,
       value (isAllowed policy user res) s
       = match value (evaluatePolicy policy user res) s with
         | Allow => true
         | Deny => false
         | Abstain => default_on_abstain
         end).
Proof.
  intros H.
  specialize (H true [] Scenario.alice Scenario.premium_of_bob
                Scenario.no_bans).
  discriminate H.
Qed.

(** C2 (amended): [isAllowed] maps the policy's decision [Allow] to [true],
    [Deny] to [false] and [Abstain] to the fixed default [false]; it takes
    no default argument, and it touches the store only through the chain
    walk. *)
Theorem isAllowed_decision_mapping policy user res s :
  value (isAllowed policy user res) s
  = match value (evaluatePolicy policy user res) s with
    | Allow => true
    | Deny => false
    | Abstain => false
    end
  /\ store_after (isAllowed policy user res) s
     = store_after (evaluatePolicy policy user res) s.
Proof.
  split.
  - rewrite isAllowed_value.
    destruct (value (evaluatePolicy policy user res) s) as [[|]|];
      reflexivity.
  - apply isAllowed_store.
Qed.

(** ** The first-decisive combinator *)

(** C3: among the decisions the evaluators of a chain produce, in sequence
    order, [evaluatePolicy] returns the first that is not [Abstain]; it
    returns [Abstain] when all of them are [Abstain], and for the empty
    chain. *)
Theorem evaluatePolicy_first_decisive policy user res s :
  (forall pre d post,
      value (opinions policy user res) s = pre ++ d :: post ->
      Forall (fun x => x = Abstain) pre ->
      d <> Abstain ->
      value (evaluatePolicy policy user res) s = d)
  /\ (Forall (fun x => x = Abstain) (value (opinions policy user res) s) ->
      value (evaluatePolicy policy user res) s = Abstain)
  /\ value (evaluatePolicy [] user res) s = Abstain.
Proof.
  repeat split.
  - intros pre d post Hds Hpre Hd.
    rewrite evaluatePolicy_FirstDecisive, Hds.
    now apply FirstDecisive_first.
  - intros Hall.
    rewrite evaluatePolicy_FirstDecisive.
    now apply FirstDecisive_all_abstain.
Qed.

Lemma evaluatePolicy_first_decisive_witness :
  value (evaluatePolicy (map always [Abstain; Abstain; Deny; Allow])
           Scenario.alice Scenario.premium_of_bob) Scenario.no_bans = Deny
  /\ value (evaluatePolicy (map always [Abstain; Abstain; Abstain])
              Scenario.alice Scenario.premium_of_bob) Scenario.no_bans
     = Abstain.
Proof.
  split.
  - apply (proj1 (evaluatePolicy_first_decisive _ _ _ _)
             [Abstain; Abstain] Deny [Allow]).
    + reflexivity.
    + repeat constructor.
    + discriminate.
  - apply (proj1 (proj2 (evaluatePolicy_first_decisive _ _ _ _))).
    repeat constructor.
Defined.

(** ** The baseline policy *)

(** C4: under the baseline policy an administrator is allowed everything,
    whatever the ban list holds and whatever the resource is. *)
Theorem admin_bypass user res s :
  is_admin user = true ->
  value (isAllowed normal_policy user res) s = true.
Proof.
  intros Hadmin. rewrite isAllowed_value.
  unfold normal_policy, value.
  rewrite (evaluatePolicy_decisive _ _ _ _ _ true).
  - reflexivity.
  - unfold value. rewrite ALLOW_ADMINS_value, Hadmin. reflexivity.
Qed.

Lemma admin_bypass_witness :
  includes (BANNED_USERS Scenario.carol_and_root_banned)
    (name Scenario.root) = true
  /\ value (isAllowed normal_policy Scenario.root Scenario.private_of_bob)
       Scenario.carol_and_root_banned = true.
Proof.
  split.
  - reflexivity.
  - apply admin_bypass. reflexivity.
Defined.

(** ** Chain order *)

Section BannedOwner.

Variables (user : User) (res : Resource) (s : Store).
Hypothesis not_admin : is_admin user = false.
Hypothesis banned : includes (BANNED_USERS s) (name user) = true.
Hypothesis owns : name user = owner res.

Lemma banned_owner_denied_by_baseline :
  value (isAllowed normal_policy user res) s = false.
Proof.
  rewrite isAllowed_value. unfold normal_policy, value.
  rewrite evaluatePolicy_abstain
    by (unfold value; now rewrite ALLOW_ADMINS_value, not_admin).
  rewrite (evaluatePolicy_decisive _ _ _ _ _ false).
  - reflexivity.
  - rewrite ALLOW_ADMINS_read_only.
    unfold value. now rewrite DENY_BANNED_value, banned.
Qed.

Lemma banned_owner_allowed_when_owner_first :
  value (isAllowed owner_first_policy user res) s = true.
Proof.
  rewrite isAllowed_value. unfold owner_first_policy, value.
  rewrite evaluatePolicy_abstain
    by (unfold value; now rewrite ALLOW_ADMINS_value, not_admin).
  rewrite (evaluatePolicy_decisive _ _ _ _ _ true).
  - reflexivity.
  - rewrite ALLOW_ADMINS_read_only.
    unfold value. rewrite OWNER_CAN_ACCESS_value, owns.
    now rewrite String.eqb_refl.
Qed.

End BannedOwner.

(** C5: a banned, non-administrative owner is refused by the baseline
    policy, where [DENY_BANNED] precedes [OWNER_CAN_ACCESS]; with the two
    swapped there is such a subject and object for which the answer is
    [true].  Chain order decides. *)
Theorem ban_overrides_ownership_by_order :
  (forall user res s,
      is_admin user = false ->
      includes (BANNED_USERS s) (name user) = true ->
      name user = owner res ->
      value (isAllowed normal_policy user res) s = false)
  /\ (exists user res s,
         is_admin user = false
         /\ includes (BANNED_USERS s) (name user) = true
         /\ name user = owner res
         /\ value (isAllowed owner_first_policy user res) s = true).
Proof.
  split.
  - intros user res s Hadmin Hbanned _.
    now apply banned_owner_denied_by_baseline.
  - exists Scenario.carol, Scenario.public_of_carol,
      Scenario.carol_and_root_banned.
    repeat split.
Qed.

Lemma ban_overrides_ownership_by_order_witness :
  value (isAllowed normal_policy Scenario.carol Scenario.public_of_carol)
    Scenario.carol_and_root_banned = false.
Proof.
  apply (proj1 ban_overrides_ownership_by_order); reflexivity.
Defined.

(** ** End-to-end scenario B *)

Lemma anniversary_policy_inserts :
  normal_policy
  = [ALLOW_ADMINS; DENY_BANNED; OWNER_CAN_ACCESS] ++ [ALLOW_BY_TIER]
  /\ anniversary_policy
     = [ALLOW_ADMINS; DENY_BANNED; OWNER_CAN_ACCESS]
       ++ FREE_PREMIUM_ACCESS :: [ALLOW_BY_TIER].
Proof. split; reflexivity. Qed.

(** C6: alice (basic tier, not an administrator, not banned) is refused
    bob's premium resource by the baseline policy and is granted it by the
    policy that has [FREE_PREMIUM_ACCESS] before [ALLOW_BY_TIER]. *)
Theorem scenario_B s :
  includes (BANNED_USERS s) "alice" = false ->
  value (isAllowed normal_policy Scenario.alice Scenario.premium_of_bob) s
  = false
  /\ value (isAllowed anniversary_policy Scenario.alice
              Scenario.premium_of_bob) s
     = true.
Proof.
  intros Hfree.
  rewrite !isAllowed_value.
  unfold normal_policy, anniversary_policy, value.
  rewrite !(evaluatePolicy_abstain _ _ ALLOW_ADMINS) by reflexivity.
  rewrite !ALLOW_ADMINS_read_only.
  rewrite !(evaluatePolicy_abstain _ _ DENY_BANNED)
    by (unfold value; rewrite DENY_BANNED_value;
        cbn [name Scenario.alice]; now rewrite Hfree).
  rewrite !DENY_BANNED_read_only.
  split; reflexivity.
Qed.

Lemma scenario_B_witness :
  value (isAllowed normal_policy Scenario.alice Scenario.premium_of_bob)
    Scenario.carol_and_root_banned = false
  /\ value (isAllowed anniversary_policy Scenario.alice
              Scenario.premium_of_bob) Scenario.carol_and_root_banned
     = true.
Proof. apply scenario_B. reflexivity. Defined.

(** ** Short-circuiting against collecting every opinion *)

Lemma decide_value policy user res s :
  value (decide policy user res) s
  = FirstDecisive (value (opinions policy user res) s).
Proof. unfold decide, value at 1. rewrite bind_run. reflexivity. Qed.

Lemma decide_store policy user res s :
  store_after (decide policy user res) s
  = store_after (opinions policy user res) s.
Proof. unfold decide, store_after at 1. rewrite bind_run. reflexivity. Qed.

(** C7: the short-circuiting walk of [evaluatePolicy] returns the decision
    that is obtained by running every evaluator of the chain in sequence
    order and applying the first-decisive combinator to the collected
    decisions, for every policy, subject and object (and every store the
    walk starts from). *)
Theorem short_circuit_same_decision policy user res s :
  value (evaluatePolicy policy user res) s = value (decide policy user res) s.
Proof.
  rewrite decide_value. apply evaluatePolicy_FirstDecisive.
Qed.

(** When the evaluators only read the store, the two walks also leave the
    same store, so nothing at all distinguishes them. *)
Lemma short_circuit_same_run policy user res s :
  Forall read_only policy ->
  evaluatePolicy policy user res s = decide policy user res s.
Proof.
  intros H. apply injective_projections.
  - change (value (evaluatePolicy policy user res) s
            = value (decide policy user res) s).
    rewrite decide_value. apply evaluatePolicy_FirstDecisive.
  - change (store_after (evaluatePolicy policy user res) s
            = store_after (decide policy user res) s).
    rewrite decide_store, opinions_read_only, evaluatePolicy_read_only;
      auto.
Qed.

(** With an evaluator that writes, the decision is still the same but the
    stores are not: the short-circuiting walk never runs [BAN_CALLER]. *)
Lemma short_circuit_skips_effects :
  let policy := [always Allow; BAN_CALLER] in
  value (evaluatePolicy policy Scenario.alice Scenario.premium_of_bob)
    Scenario.no_bans
  = value (decide policy Scenario.alice Scenario.premium_of_bob)
      Scenario.no_bans
  /\ store_after (evaluatePolicy policy Scenario.alice
                    Scenario.premium_of_bob) Scenario.no_bans
     = Scenario.no_bans
  /\ store_after (decide policy Scenario.alice Scenario.premium_of_bob)
       Scenario.no_bans
     = {| BANNED_USERS := ["alice"] |}.
Proof. repeat split. Qed.

(** ** Determinism of the rule library *)

(** C8: every evaluator of [EVALUATORS] is deterministic: called twice in a
    row on equal subjects and objects it returns the same decision, because
    the first call leaves the store (the ban list) as it found it. *)
Theorem EVALUATORS_deterministic key fn :
  In (key, fn) EVALUATORS ->
  forall user1 res1 user2 res2 s,
    user1 = user2 -> res1 = res2 ->
    value (fn user2 res2) (store_after (fn user1 res1) s)
    = value (fn user1 res1) s
    /\ store_after (fn user1 res1) s = s.
Proof.
  intros Hin user1 res1 user2 res2 s <- <-.
  assert (Hro : read_only fn).
  { pose proof EVALUATORS_read_only as Hall.
    rewrite Forall_forall in Hall. apply Hall.
    change fn with (snd (key, fn)). now apply in_map. }
  rewrite Hro. split; reflexivity.
Qed.

Lemma EVALUATORS_deterministic_witness :
  value (DENY_BANNED Scenario.carol Scenario.public_of_carol)
    (store_after (DENY_BANNED Scenario.carol Scenario.public_of_carol)
       Scenario.carol_and_root_banned)
  = value (DENY_BANNED Scenario.carol Scenario.public_of_carol)
      Scenario.carol_and_root_banned
  /\ store_after (DENY_BANNED Scenario.carol Scenario.public_of_carol)
       Scenario.carol_and_root_banned
     = Scenario.carol_and_root_banned.
Proof.
  apply (EVALUATORS_deterministic "DENY_BANNED" DENY_BANNED).
  - unfold EVALUATORS. right. left. reflexivity.
  - reflexivity.
  - reflexivity.
Defined.

(** ** The generic chain walk *)

(** C9: [evaluateChain], taken at argument tuples [[user, res]] and boolean
    results, is [evaluatePolicy]: the same result, [undefined] included, and
    the same effect on the store, for every policy, user and resource. *)
Theorem evaluateChain_is_evaluatePolicy policy user res :
  evaluateChain (map spread policy) (user, res)
  = evaluatePolicy policy user res.
Proof.
  induction policy as [|fn rest IH].
  - reflexivity.
  - cbn [map evaluateChain evaluatePolicy].
    rewrite IH. reflexivity.
Qed.

(** ** Strategies against guards *)

(** C10: with [normal_policies], the strategy-pattern [isAllowed] of
    Example 3 returns the boolean that the guard-style [isAllowed] of
    Example 2 returns, for every user and resource, when both read the same
    ban list. *)
Theorem strategy_normal_is_guards user res s :
  Example3.isAllowed Example3.normal_policies user res s
  = Example2.isAllowed user res s.
Proof.
  unfold Example3.isAllowed, Example2.isAllowed.
  destruct (is_admin user); [reflexivity|].
  rewrite !bind_run.
  cbn [Example3.is_banned Example3.normal_policies].
  unfold value at 1, store_after at 1. rewrite !bind_run.
  cbn [value store_after read_BANNED_USERS ret fst snd].
  destruct (includes (BANNED_USERS s) (name user)); [reflexivity|].
  destruct (vis res); reflexivity.
Qed.

(** * Further properties of the four examples *)

(** ** Case analysis on everything an access check looks at *)

Ltac expose :=
  cbv [Example1.isAllowed Example2.isAllowed Example3.isAllowed
       Example3.normal_policies Example3.anniversary_policies
       Example3.lookup_visibility Example3.is_banned
       Example3.allow_by_visibility Example3.public Example3.premium
       Example3.private
       isAllowed evaluatePolicy normal_policy anniversary_policy
       strict_policy debug_policy
       ALLOW_ADMINS DENY_BANNED OWNER_CAN_ACCESS ALLOW_BY_TIER
       FREE_PREMIUM_ACCESS
       bind ret read_BANNED_USERS value store_after fst snd app].

Ltac by_cases user res s :=
  expose;
  destruct (is_admin user) eqn:Hadmin;
  destruct (vis res) eqn:Hvis;
  destruct (tier user) eqn:Htier;
  cbn -[includes String.eqb];
  destruct (String.eqb_spec (name user) (owner res)) as [Howner|Howner];
  cbn -[includes String.eqb];
  destruct (includes (BANNED_USERS s) (name user)) eqn:Hbanned;
  cbn -[includes String.eqb].

(** ** The chain baseline is the nested conditionals of Example 1 *)

(** X1: the chain [normal_policy] of Example 4, run by [isAllowed], gives
    for every user, resource and ban list the answer of Example 1's nested
    conditionals, and leaves the same store. *)
Theorem chain_normal_is_Example1 user res s :
  Example4.isAllowed normal_policy user res s
  = Example1.isAllowed user res s.
Proof. by_cases user res s; reflexivity. Qed.

(** ** Where the examples disagree *)

(** X2: whatever Example 2 allows Example 1 allows too, and the two differ
    on exactly one kind of request: a basic-tier, non-banned,
    non-administrative owner asking for their own premium resource, which
    Example 1 grants and Example 2 refuses. *)
Theorem Example1_vs_Example2 user res s :
  (value (Example2.isAllowed user res) s = true ->
   value (Example1.isAllowed user res) s = true)
  /\ (value (Example1.isAllowed user res) s = true
      /\ value (Example2.isAllowed user res) s = false
      <-> is_admin user = false
          /\ includes (BANNED_USERS s) (name user) = false
          /\ name user = owner res
          /\ vis res = vis_premium
          /\ tier user = tier_basic).
Proof.
  by_cases user res s; intuition (congruence || discriminate).
Qed.

Lemma Example1_vs_Example2_witness :
  value (Example1.isAllowed Cases.dave Cases.premium_of_dave)
    Scenario.no_bans = true
  /\ value (Example2.isAllowed Cases.dave Cases.premium_of_dave)
       Scenario.no_bans = false.
Proof.
  apply (proj2 (Example1_vs_Example2 _ _ _)).
  repeat split.
Defined.

(** X3: the chain baseline [normal_policy] of Example 4 and the strategy
    baseline [normal_policies] of Example 3 are not the same policy: the
    chain allows whatever the strategy allows, and in addition grants a
    basic-tier, non-banned, non-administrative owner their own premium
    resource; they agree everywhere else. *)
Theorem chain_normal_vs_strategy_normal user res s :
  (value (Example3.isAllowed Example3.normal_policies user res) s = true ->
   value (Example4.isAllowed normal_policy user res) s = true)
  /\ (value (Example4.isAllowed normal_policy user res) s = true
      /\ value (Example3.isAllowed Example3.normal_policies user res) s
         = false
      <-> is_admin user = false
          /\ includes (BANNED_USERS s) (name user) = false
          /\ name user = owner res
          /\ vis res = vis_premium
          /\ tier user = tier_basic).
Proof.
  by_cases user res s; intuition (congruence || discriminate).
Qed.

Lemma chain_normal_vs_strategy_normal_witness :
  value (Example4.isAllowed normal_policy Cases.dave Cases.premium_of_dave)
    Scenario.no_bans = true
  /\ value (Example3.isAllowed Example3.normal_policies Cases.dave
              Cases.premium_of_dave) Scenario.no_bans = false.
Proof.
  apply (proj2 (chain_normal_vs_strategy_normal _ _ _)).
  repeat split.
Defined.

(** ** What each chain of Example 4 grants *)

(** X4: [strict_policy] grants access exactly to administrators and to
    non-banned owners; tier and visibility play no part. *)
Theorem strict_policy_grants user res s :
  value (Example4.isAllowed strict_policy user res) s = true
  <-> is_admin user = true
      \/ (includes (BANNED_USERS s) (name user) = false
          /\ name user = owner res).
Proof.
  by_cases user res s; intuition (congruence || discriminate).
Qed.

Lemma strict_policy_grants_witness :
  value (Example4.isAllowed strict_policy Cases.dave Cases.private_of_dave)
    Scenario.carol_and_root_banned = true.
Proof.
  apply (proj2 (strict_policy_grants _ _ _)).
  right. split; reflexivity.
Defined.

(** X5: [anniversary_policy] grants access exactly to administrators and
    to non-banned users who own the resource or ask for a resource that is
    not private; the user's tier plays no part. *)
Theorem anniversary_policy_grants user res s :
  value (Example4.isAllowed anniversary_policy user res) s = true
  <-> is_admin user = true
      \/ (includes (BANNED_USERS s) (name user) = false
          /\ (name user = owner res \/ vis res <> vis_private)).
Proof.
  by_cases user res s; intuition (congruence || discriminate).
Qed.

Lemma anniversary_policy_grants_witness :
  value (Example4.isAllowed anniversary_policy Scenario.alice
           Cases.premium_of_dave) Cases.dave_banned = true.
Proof.
  apply (proj2 (anniversary_policy_grants _ _ _)).
  right. split; [reflexivity | right; discriminate].
Defined.

(** X6: the four chains of Example 4 are ordered by what they grant:
    whatever [strict_policy] allows [normal_policy] allows, whatever
    [normal_policy] allows [anniversary_policy] allows, and [debug_policy]
    allows every request. *)
Theorem chains_widen user res s :
  (value (Example4.isAllowed strict_policy user res) s = true ->
   value (Example4.isAllowed normal_policy user res) s = true)
  /\ (value (Example4.isAllowed normal_policy user res) s = true ->
      value (Example4.isAllowed anniversary_policy user res) s = true)
  /\ value (Example4.isAllowed debug_policy user res) s = true.
Proof.
  by_cases user res s; intuition (congruence || discriminate).
Qed.

Lemma chains_widen_witness :
  value (Example4.isAllowed anniversary_policy Cases.erin
           Scenario.premium_of_bob) Scenario.no_bans = true.
Proof.
  apply (proj1 (proj2 (chains_widen _ _ _))). reflexivity.
Defined.

(** X7: appending [FREE_PREMIUM_ACCESS] to the end of the baseline chain
    changes nothing: [ALLOW_BY_TIER] has already decided every premium
    resource, so the promotion has to be placed before it, as
    [anniversary_policy] does. *)
Theorem FREE_PREMIUM_ACCESS_last_changes_nothing user res s :
  Example4.isAllowed (normal_policy ++ [FREE_PREMIUM_ACCESS]) user res s
  = Example4.isAllowed normal_policy user res s.
Proof. by_cases user res s; reflexivity. Qed.

(** ** Bans and private resources across the examples *)

(** X8: a banned user who is not an administrator is refused every
    resource, their own included, by Examples 1 and 2, by the strategy
    [normal_policies] and by the chains [normal_policy],
    [anniversary_policy] and [strict_policy]. *)
Theorem banned_users_are_refused user res s :
  is_admin user = false ->
  includes (BANNED_USERS s) (name user) = true ->
  value (Example1.isAllowed user res) s = false
  /\ value (Example2.isAllowed user res) s = false
  /\ value (Example3.isAllowed Example3.normal_policies user res) s = false
  /\ value (Example4.isAllowed normal_policy user res) s = false
  /\ value (Example4.isAllowed anniversary_policy user res) s = false
  /\ value (Example4.isAllowed strict_policy user res) s = false.
Proof.
  by_cases user res s; intuition (congruence || discriminate).
Qed.

Lemma banned_users_are_refused_witness :
  value (Example1.isAllowed Cases.dave Cases.premium_of_dave)
    Cases.dave_banned = false
  /\ value (Example2.isAllowed Cases.dave Cases.premium_of_dave)
       Cases.dave_banned = false
  /\ value (Example3.isAllowed Example3.normal_policies Cases.dave
              Cases.premium_of_dave) Cases.dave_banned = false
  /\ value (Example4.isAllowed normal_policy Cases.dave
              Cases.premium_of_dave) Cases.dave_banned = false
  /\ value (Example4.isAllowed anniversary_policy Cases.dave
              Cases.premium_of_dave) Cases.dave_banned = false
  /\ value (Example4.isAllowed strict_policy Cases.dave
              Cases.premium_of_dave) Cases.dave_banned = false.
Proof.
  apply banned_users_are_refused; reflexivity.
Defined.

(** X9: the strategy [anniversary_policies] never looks at the ban list:
    on every store it answers what the chain [anniversary_policy] answers
    when nobody is banned. *)
Theorem strategy_anniversary_ignores_bans user res s :
  value (Example3.isAllowed Example3.anniversary_policies user res) s
  = value (Example4.isAllowed anniversary_policy user res)
      {| BANNED_USERS := [] |}.
Proof. by_cases user res s; reflexivity. Qed.

(** X10: a private resource is granted only to an administrator or to its
    owner, by every example and every policy of the repository except
    [debug_policy]. *)
Theorem private_resources_stay_private user res s :
  vis res = vis_private ->
  is_admin user = false ->
  name user <> owner res ->
  value (Example1.isAllowed user res) s = false
  /\ value (Example2.isAllowed user res) s = false
  /\ value (Example3.isAllowed Example3.normal_policies user res) s = false
  /\ value (Example3.isAllowed Example3.anniversary_policies user res) s
     = false
  /\ value (Example4.isAllowed normal_policy user res) s = false
  /\ value (Example4.isAllowed anniversary_policy user res) s = false
  /\ value (Example4.isAllowed strict_policy user res) s = false.
Proof.
  by_cases user res s; intuition (congruence || discriminate).
Qed.

Lemma private_resources_stay_private_witness :
  value (Example1.isAllowed Cases.erin Cases.private_of_dave)
    Scenario.no_bans = false
  /\ value (Example2.isAllowed Cases.erin Cases.private_of_dave)
       Scenario.no_bans = false
  /\ value (Example3.isAllowed Example3.normal_policies Cases.erin
              Cases.private_of_dave) Scenario.no_bans = false
  /\ value (Example3.isAllowed Example3.anniversary_policies Cases.erin
              Cases.private_of_dave) Scenario.no_bans = false
  /\ value (Example4.isAllowed normal_policy Cases.erin
              Cases.private_of_dave) Scenario.no_bans = false
  /\ value (Example4.isAllowed anniversary_policy Cases.erin
              Cases.private_of_dave) Scenario.no_bans = false
  /\ value (Example4.isAllowed strict_policy Cases.erin
              Cases.private_of_dave) Scenario.no_bans = false.
Proof.
  apply private_resources_stay_private;
    [reflexivity | reflexivity | discriminate].
Defined.

(** X11: no access check of the repository writes to [BANNED_USERS]:
    Examples 1 and 2, both strategies of Example 3 and the four chains of
    Example 4 leave the store as they found it. *)
Theorem access_checks_never_write user res s :
  store_after (Example1.isAllowed user res) s = s
  /\ store_after (Example2.isAllowed user res) s = s
  /\ store_after (Example3.isAllowed Example3.normal_policies user res) s = s
  /\ store_after (Example3.isAllowed Example3.anniversary_policies user res)
       s = s
  /\ store_after (Example4.isAllowed normal_policy user res) s = s
  /\ store_after (Example4.isAllowed anniversary_policy user res) s = s
  /\ store_after (Example4.isAllowed strict_policy user res) s = s
  /\ store_after (Example4.isAllowed debug_policy user res) s = s.
Proof. by_cases user res s; repeat split; reflexivity. Qed.

(** ** Composing and pruning chains *)

Lemma evaluatePolicy_app pre post user res s :
  evaluatePolicy (pre ++ post) user res s
  = match value (evaluatePolicy pre user res) s with
    | Some b => (Some b, store_after (evaluatePolicy pre user res) s)
    | None =>
        evaluatePolicy post user res
          (store_after (evaluatePolicy pre user res) s)
    end.
Proof.
  revert s. induction pre as [|fn rest IH]; intros s.
  - reflexivity.
  - unfold value, store_after. cbn [app evaluatePolicy].
    rewrite !bind_run.
    destruct (value (fn user res) s) as [b|].
    + reflexivity.
    + apply IH.
Qed.

(** X12: [evaluateChain] on a concatenation: it returns what the first
    chain returns when that is defined, and otherwise runs the second chain
    from the store the first one left; this holds for every argument and
    result type. *)
Theorem evaluateChain_app {TArgs TResult : Type}
  (chain1 chain2 : list (TArgs -> M (option TResult))) (args : TArgs) s :
  evaluateChain (chain1 ++ chain2) args s
  = match value (evaluateChain chain1 args) s with
    | Some x => (Some x, store_after (evaluateChain chain1 args) s)
    | None =>
        evaluateChain chain2 args
          (store_after (evaluateChain chain1 args) s)
    end.
Proof.
  revert s. induction chain1 as [|fn rest IH]; intros s.
  - reflexivity.
  - unfold value, store_after. cbn [app evaluateChain].
    rewrite !bind_run.
    destruct (value (fn args) s) as [x|].
    + reflexivity.
    + apply IH.
Qed.

(** X13: an evaluator that abstains on a request can be taken out of a
    chain without changing what [evaluatePolicy] returns for that request,
    provided it and the evaluators before it only read the store. *)
Theorem abstaining_evaluator_is_removable pre fn post user res s :
  Forall read_only pre ->
  read_only fn ->
  value (fn user res) s = Abstain ->
  evaluatePolicy (pre ++ fn :: post) user res s
  = evaluatePolicy (pre ++ post) user res s.
Proof.
  intros Hpre Hfn Habs. unfold AccessEvaluator in *.
  rewrite !evaluatePolicy_app.
  rewrite (evaluatePolicy_read_only user res pre s Hpre).
  destruct (value (evaluatePolicy pre user res) s); [reflexivity|].
  rewrite (evaluatePolicy_abstain user res fn post s Habs).
  now rewrite Hfn.
Qed.

Lemma abstaining_evaluator_is_removable_witness :
  evaluatePolicy normal_policy Scenario.alice Scenario.premium_of_bob
    Scenario.no_bans
  = evaluatePolicy [ALLOW_ADMINS; OWNER_CAN_ACCESS; ALLOW_BY_TIER]
      Scenario.alice Scenario.premium_of_bob Scenario.no_bans.
Proof.
  apply (abstaining_evaluator_is_removable [ALLOW_ADMINS] DENY_BANNED
           [OWNER_CAN_ACCESS; ALLOW_BY_TIER]).
  - constructor; [exact ALLOW_ADMINS_read_only | constructor].
  - exact DENY_BANNED_read_only.
  - reflexivity.
Defined.

(** X14: the evaluators placed after one that never abstains on a request
    are dead for that request: [evaluatePolicy] returns the same with or
    without them. *)
Theorem evaluators_after_a_decisive_one_are_dead pre fn post user res s :
  (forall s', value (fn user res) s' <> Abstain) ->
  evaluatePolicy (pre ++ fn :: post) user res s
  = evaluatePolicy (pre ++ [fn]) user res s.
Proof.
  intros Hfn. unfold AccessEvaluator in *.
  rewrite !evaluatePolicy_app.
  destruct (value (evaluatePolicy pre user res) s); [reflexivity|].
  set (s' := store_after (evaluatePolicy pre user res) s).
  destruct (value (fn user res) s') as [b|] eqn:E.
  - now rewrite !(evaluatePolicy_decisive user res fn _ s' b E).
  - now elim (Hfn s').
Qed.

Lemma evaluators_after_a_decisive_one_are_dead_witness :
  evaluatePolicy
    ([ALLOW_ADMINS; DENY_BANNED; OWNER_CAN_ACCESS]
       ++ ALLOW_BY_TIER :: [FREE_PREMIUM_ACCESS])
    Scenario.alice Scenario.premium_of_bob Scenario.no_bans
  = evaluatePolicy
      ([ALLOW_ADMINS; DENY_BANNED; OWNER_CAN_ACCESS] ++ [ALLOW_BY_TIER])
      Scenario.alice Scenario.premium_of_bob Scenario.no_bans.
Proof.
  apply evaluators_after_a_decisive_one_are_dead.
  intros s'. discriminate.
Defined.

(** X15: in a chain of evaluators that only read the store,
    [evaluatePolicy] abstains exactly when every evaluator abstains, a
    decision it returns is the decision of one of the evaluators, and so
    [isAllowed] answers [true] only if some evaluator of the chain answered
    [true]. *)
Theorem chain_decisions_come_from_evaluators policy user res s :
  Forall read_only policy ->
  (value (evaluatePolicy policy user res) s = Abstain
   <-> Forall (fun fn => value (fn user res) s = Abstain) policy)
  /\ (forall b,
         value (evaluatePolicy policy user res) s = Some b ->
         exists fn, In fn policy /\ value (fn user res) s = Some b)
  /\ (value (Example4.isAllowed policy user res) s = true ->
      exists fn, In fn policy /\ value (fn user res) s = Allow).
Proof.
  intros Hro. unfold AccessPolicy, AccessEvaluator in *.
  assert (Hnone :
    value (evaluatePolicy policy user res) s = Abstain
    <-> Forall (fun fn => value (fn user res) s = Abstain) policy).
  { induction Hro as [|fn rest Hfn _ IH].
    - split; [constructor | reflexivity].
    - destruct (value (fn user res) s) as [b|] eqn:E.
      + unfold value at 1.
        rewrite (evaluatePolicy_decisive user res fn rest s b E).
        split; [discriminate|].
        intros Hall. inversion Hall; congruence.
      + unfold value at 1.
        rewrite (evaluatePolicy_abstain user res fn rest s E), Hfn.
        fold (value (evaluatePolicy rest user res) s).
        rewrite IH. split.
        * now constructor.
        * intros Hall. now inversion Hall. }
  assert (Hsome : forall b,
    value (evaluatePolicy policy user res) s = Some b ->
    exists fn, In fn policy /\ value (fn user res) s = Some b).
  { clear Hnone. induction Hro as [|fn rest Hfn _ IH]; intros b.
    - discriminate.
    - destruct (value (fn user res) s) as [b'|] eqn:E.
      + unfold value at 1.
        rewrite (evaluatePolicy_decisive user res fn rest s b' E).
        cbn [fst]. intros [= <-]. exists fn. split; [now left | exact E].
      + unfold value at 1.
        rewrite (evaluatePolicy_abstain user res fn rest s E), Hfn.
        intros H. destruct (IH b H) as (fn' & Hin & Hfn').
        exists fn'. split; [now right | exact Hfn']. }
  repeat split; try apply Hnone; try exact Hsome.
  rewrite isAllowed_value.
  destruct (value (evaluatePolicy policy user res) s) as [[|]|] eqn:E;
    try discriminate.
  intros _. now apply Hsome.
Qed.

Lemma chain_decisions_come_from_evaluators_witness :
  exists fn,
    In fn anniversary_policy
    /\ value (fn Scenario.alice Scenario.premium_of_bob) Scenario.no_bans
       = Allow.
Proof.
  apply (proj2 (proj2 (chain_decisions_come_from_evaluators
                         anniversary_policy Scenario.alice
                         Scenario.premium_of_bob Scenario.no_bans
                         anniversary_policy_read_only))).
  reflexivity.
Defined.

(** ** What the evaluators of the rule library can answer *)

(** X16: in [EVALUATORS] only [DENY_BANNED] and [ALLOW_BY_TIER] ever answer
    [false], and [DENY_BANNED] never answers [true]: the other three either
    allow or abstain. *)
Theorem EVALUATORS_answers key fn user res s :
  In (key, fn) EVALUATORS ->
  (value (fn user res) s = Deny ->
   key = "DENY_BANNED" \/ key = "ALLOW_BY_TIER")
  /\ (value (fn user res) s = Allow -> key <> "DENY_BANNED").
Proof.
  unfold EVALUATORS. cbn [In].
  intros [H|[H|[H|[H|[H|[]]]]]]; injection H as <- <-.
  - split; [|discriminate].
    cbv [ALLOW_ADMINS value ret fst]. destruct (is_admin user); discriminate.
  - split; [now left|].
    cbv [DENY_BANNED value bind ret read_BANNED_USERS fst].
    destruct (includes (BANNED_USERS s) (name user)); discriminate.
  - split; [|discriminate].
    cbv [OWNER_CAN_ACCESS value ret fst].
    destruct (String.eqb (name user) (owner res)); discriminate.
  - split; [now right | discriminate].
  - split; [|discriminate].
    cbv [FREE_PREMIUM_ACCESS value ret fst].
    destruct (Visibility_eqb (vis res) vis_premium); discriminate.
Qed.

Lemma EVALUATORS_answers_witness :
  In ("ALLOW_BY_TIER", ALLOW_BY_TIER) EVALUATORS
  /\ value (ALLOW_BY_TIER Scenario.alice Scenario.premium_of_bob)
       Scenario.no_bans = Deny
  /\ ("ALLOW_BY_TIER" = "DENY_BANNED" \/ "ALLOW_BY_TIER" = "ALLOW_BY_TIER").
Proof.
  assert (Hin : In ("ALLOW_BY_TIER", ALLOW_BY_TIER) EVALUATORS).
  { unfold EVALUATORS. right. right. right. left. reflexivity. }
  split; [exact Hin|]. split; [reflexivity|].
  apply (proj1 (EVALUATORS_answers "ALLOW_BY_TIER" ALLOW_BY_TIER
                  Scenario.alice Scenario.premium_of_bob Scenario.no_bans
                  Hin)).
  reflexivity.
Defined.

(** ** Strategies against chains *)

(** X17: no strategy of Example 3 can refuse an administrator, whatever
    functions the policy object holds, and none of them is even called;
    a chain of Example 4 can: the baseline chain without [ALLOW_ADMINS]
    refuses an administrator a private resource of somebody else. *)
Theorem only_chains_can_refuse_admins :
  (forall (policy : Example3.AccessPolicy) user res s,
      is_admin user = true ->
      Example3.isAllowed policy user res s = (true, s))
  /\ (exists (policy : Example4.AccessPolicy) user res s,
         is_admin user = true
         /\ policy = [DENY_BANNED; OWNER_CAN_ACCESS; ALLOW_BY_TIER]
         /\ value (Example4.isAllowed policy user res) s = false).
Proof.
  split.
  - intros policy user res s Hadmin.
    unfold Example3.isAllowed. now rewrite Hadmin.
  - exists [DENY_BANNED; OWNER_CAN_ACCESS; ALLOW_BY_TIER],
      Scenario.root, Scenario.private_of_bob, Scenario.no_bans.
    repeat split.
Qed.

Lemma only_chains_can_refuse_admins_witness :
  Example3.isAllowed Example3.anniversary_policies Scenario.root
    Scenario.private_of_bob Scenario.carol_and_root_banned
  = (true, Scenario.carol_and_root_banned).
Proof.
  apply (proj1 only_chains_can_refuse_admins). reflexivity.
Defined.

(** X18: every strategy of Example 3 can be written as a chain of
    Example 4: for each policy object there is a chain on which
    [isAllowed] returns the same boolean and leaves the same store, for
    every user, resource and store, even when the functions of the policy
    object write to the store. *)
Theorem strategies_are_chains (policy : Example3.AccessPolicy) :
  exists chain : Example4.AccessPolicy,
    forall user res s,
      Example4.isAllowed chain user res s
      = Example3.isAllowed policy user res s.
Proof.
  exists
    [ ALLOW_ADMINS;
      (fun user res =>
         b <- Example3.is_banned policy user res ;;
         ret (if b then Deny else Abstain));
      (fun user res =>
         b <- Example3.lookup_visibility
                (Example3.allow_by_visibility policy) (vis res) user res ;;
         ret (Some b)) ].
  intros user res s.
  cbv [Example4.isAllowed Example3.isAllowed evaluatePolicy bind ret
       ALLOW_ADMINS].
  destruct (is_admin user); [reflexivity|].
  destruct (Example3.is_banned policy user res s) as [[|] s1];
    [reflexivity|].
  destruct (Example3.lookup_visibility
              (Example3.allow_by_visibility policy) (vis res) user res s1)
    as [b s2].
  reflexivity.
Qed.

(** ** Which reorderings of a chain matter *)

(** X19: the order of [normal_policy] is nowhere redundant: swapping any
    two neighbours of the chain changes the answer to some request (a
    banned administrator, a banned owner, a basic-tier owner of a premium
    resource). *)
Theorem normal_policy_order_is_tight :
  normal_policy
  = [ALLOW_ADMINS; DENY_BANNED; OWNER_CAN_ACCESS; ALLOW_BY_TIER]
  /\ (exists user res s,
         value (Example4.isAllowed normal_policy user res) s
         <> value (Example4.isAllowed
                     [DENY_BANNED; ALLOW_ADMINS; OWNER_CAN_ACCESS;
                      ALLOW_BY_TIER] user res) s)
  /\ (exists user res s,
         value (Example4.isAllowed normal_policy user res) s
         <> value (Example4.isAllowed
                     [ALLOW_ADMINS; OWNER_CAN_ACCESS; DENY_BANNED;
                      ALLOW_BY_TIER] user res) s)
  /\ (exists user res s,
         value (Example4.isAllowed normal_policy user res) s
         <> value (Example4.isAllowed
                     [ALLOW_ADMINS; DENY_BANNED; ALLOW_BY_TIER;
                      OWNER_CAN_ACCESS] user res) s).
Proof.
  split; [reflexivity|]. repeat split.
  - exists Scenario.root, Scenario.private_of_bob,
      Scenario.carol_and_root_banned. discriminate.
  - exists Cases.dave, Cases.premium_of_dave, Cases.dave_banned.
    discriminate.
  - exists Cases.dave, Cases.premium_of_dave, Scenario.no_bans.
    discriminate.
Qed.

(** X20: two neighbouring evaluators can be swapped without changing what
    [evaluatePolicy] returns for a request when they, and the evaluators
    before them, only read the store and the two cannot contradict each
    other on that request. *)
Theorem agreeing_neighbours_commute pre fn1 fn2 post user res s :
  Forall read_only pre ->
  read_only fn1 ->
  read_only fn2 ->
  (forall b1 b2,
      value (fn1 user res) s = Some b1 ->
      value (fn2 user res) s = Some b2 -> b1 = b2) ->
  evaluatePolicy (pre ++ fn1 :: fn2 :: post) user res s
  = evaluatePolicy (pre ++ fn2 :: fn1 :: post) user res s.
Proof.
  intros Hpre H1 H2 Hagree. unfold AccessEvaluator in *.
  rewrite !evaluatePolicy_app.
  rewrite (evaluatePolicy_read_only user res pre s Hpre).
  destruct (value (evaluatePolicy pre user res) s); [reflexivity|].
  destruct (value (fn1 user res) s) as [b1|] eqn:E1;
    destruct (value (fn2 user res) s) as [b2|] eqn:E2.
  - rewrite (evaluatePolicy_decisive user res fn1 _ s b1 E1).
    rewrite (evaluatePolicy_decisive user res fn2 _ s b2 E2).
    now rewrite H1, H2, (Hagree b1 b2).
  - rewrite (evaluatePolicy_decisive user res fn1 _ s b1 E1).
    rewrite (evaluatePolicy_abstain user res fn2 _ s E2), H2.
    now rewrite (evaluatePolicy_decisive user res fn1 _ s b1 E1).
  - rewrite (evaluatePolicy_abstain user res fn1 _ s E1), H1.
    rewrite (evaluatePolicy_decisive user res fn2 post s b2 E2).
    now rewrite (evaluatePolicy_decisive user res fn2 (fn1 :: post) s b2 E2).
  - rewrite (evaluatePolicy_abstain user res fn1 _ s E1), H1.
    rewrite (evaluatePolicy_abstain user res fn2 _ s E2), H2.
    rewrite (evaluatePolicy_abstain user res fn2 _ s E2), H2.
    now rewrite (evaluatePolicy_abstain user res fn1 _ s E1), H1.
Qed.

Lemma agreeing_neighbours_commute_witness :
  evaluatePolicy anniversary_policy Cases.dave Cases.premium_of_dave
    Scenario.no_bans
  = evaluatePolicy
      [ALLOW_ADMINS; DENY_BANNED; FREE_PREMIUM_ACCESS; OWNER_CAN_ACCESS;
       ALLOW_BY_TIER]
      Cases.dave Cases.premium_of_dave Scenario.no_bans.
Proof.
  apply (agreeing_neighbours_commute [ALLOW_ADMINS; DENY_BANNED]
           OWNER_CAN_ACCESS FREE_PREMIUM_ACCESS [ALLOW_BY_TIER]).
  - constructor; [exact ALLOW_ADMINS_read_only|].
    constructor; [exact DENY_BANNED_read_only | constructor].
  - exact OWNER_CAN_ACCESS_read_only.
  - exact FREE_PREMIUM_ACCESS_read_only.
  - intros b1 b2 E1 E2. vm_compute in E1, E2. congruence.
Defined.
